(** * Cold email generator (src/main.py): shallow embedding and properties

    The program is a Streamlit form around three methods of
    [ColdEmailGenerator]: the constructor, which resolves the Groq API key,
    [extract_text_from_pdf] and [generate_cold_email], and the script's
    [main].  Everything the program does is an effect on the outside world
    (widgets, the environment, PyPDF2, the Groq endpoint), so the embedding
    is a writer monad over the chronological log of those effects, with the
    values the outside world hands back collected in a [world] record.

    Modelling conventions:
    - a Python value is a [pyval]: [None], a [str], or any other object,
      of which the program observes nothing but its truth value and the
      text it formats to (a secret that is a number or a table in the
      secrets file, for instance); [truthy] is Python's truth test;
    - a Python exception (an instance of [Exception], which is what the
      two [except Exception] clauses catch) is an [exn]: its class name and
      the text [str(e)] gives.  [KeyboardInterrupt] and [SystemExit] are not
      instances of [Exception] and are outside the model;
    - a call that may raise returns [exn + A], [inl] being the raise;
    - the float literal [0.7] is kept as the decimal it is written as, the
      rational [7 # 10];
    - the statements at module level run before [main] and take no part in
      it: [load_dotenv()], whose effect is in what [os.getenv] answers, and
      the sidebar notes of lines 149-162. *)

From Stdlib Require Import String Ascii List Bool Arith ZArith QArith Lia.
Import ListNotations.
Local Close Scope Q_scope.
Local Open Scope string_scope.
Local Open Scope list_scope.

(** ** Python values *)

Inductive pyval : Type :=
| PyNone
| PyStr (s : string)
| PyObj (truth : bool) (text : string).

(** [bool(v)]: [None] and the empty string are false; another object
    answers for itself. *)
Definition truthy (v : pyval) : bool :=
  match v with
  | PyNone => false
  | PyStr EmptyString => false
  | PyStr (String _ _) => true
  | PyObj truth _ => truth
  end.

(** [format(v, "")], what an f-string field [{v}] inserts. *)
Definition py_format (v : pyval) : string :=
  match v with
  | PyNone => "None"
  | PyStr s => s
  | PyObj _ text => text
  end.

Record exn : Type := Exception {
  exn_class : string;
  exn_message : string
}.

(** [str(e)], what an f-string field [{e}] inserts. *)
Definition py_str_exn (e : exn) : string := exn_message e.

Definition nl : string := String (ascii_of_nat 10) EmptyString.

(** ** The outside world *)

(** A page of a PyPDF2 reader: what [page.extract_text()] does. *)
Record page : Type := Page {
  extract_text : exn + string
}.

(** An uploaded file: what [PyPDF2.PdfReader(pdf_file)] followed by
    [.pages] does, either a raise or the pages in page order. *)
Record pdf_file : Type := UploadedFile {
  PdfReader_pages : exn + list page
}.

(** The client object [Groq(api_key=...)]. *)
Record Groq : Type := mkGroq {
  api_key : pyval
}.

Record message : Type := mkMessage {
  role : string;
  content : string
}.

(** The keyword arguments of [client.chat.completions.create]. *)
Record request : Type := mkRequest {
  messages : list message;
  model : string;
  max_tokens : Z;
  temperature : Q
}.

(** A completion: [choices], each reduced to its [message.content]. *)
Record chat_completion : Type := ChatCompletion {
  choices : list pyval
}.

Record world : Type := World {
  (* os.getenv('GROQ_API_KEY') *)
  getenv_GROQ_API_KEY : pyval;
  (* st.secrets.GROQ_API_KEY; None when hasattr(st.secrets, 'GROQ_API_KEY')
     is false.  The value is whatever the secrets file holds, a string or
     not: lines 28-37 pass it on as it is.  hasattr is taken to answer
     True or False, as line 28 expects of it. *)
  secrets_GROQ_API_KEY : option pyval;
  (* st.text_input("Enter your Groq API Key", type="password") *)
  entered_api_key : string;
  (* st.sidebar.text_input("Groq API Key (optional)", type="password") *)
  sidebar_api_key : string;
  (* st.file_uploader("Choose a PDF file", type="pdf") *)
  file_uploader_value : option pdf_file;
  (* st.text_area("Paste the full job description here", height=200) *)
  text_area_value : string;
  (* st.button("Generate Cold Email") *)
  generate_clicked : bool;
  (* st.button("Copy to Clipboard") *)
  copy_clicked : bool;
  (* client.chat.completions.create(...) on the remote endpoint *)
  completions_create : Groq -> request -> exn + chat_completion
}.

(** ** Effects *)

Inductive event : Type :=
| EvTitle (body : string)
| EvSidebarHeader (body : string)
| EvSidebarTextInput (label : string)
| EvSidebarInfo (body : string)
| EvHeader (body : string)
| EvFileUploader (label : string)
| EvTextArea (label : string)
| EvButton (label : string)
| EvTextInput (label : string)
| EvWarning (body : string)
| EvError (body : string)
| EvWrite (body : pyval)
| EvCreate (client : Groq) (req : request).

Definition trace : Type := list event.

Module Effect.

(** A computation returns a value and the events it caused, oldest
    first. *)
Definition M (A : Type) : Type := (A * trace)%type.

Definition ret {A : Type} (a : A) : M A := (a, []).

Definition bind {A B : Type} (m : M A) (f : A -> M B) : M B :=
  let (a, t1) := m in
  let (b, t2) := f a in
  (b, t1 ++ t2).

Definition emit (e : event) : M unit := (tt, [e]).

Definition result {A : Type} (m : M A) : A := fst m.
Definition log {A : Type} (m : M A) : trace := snd m.

End Effect.

Import Effect.

Declare Scope effect_scope.
Delimit Scope effect_scope with effect.
Notation "x <- c1 ;; c2" := (bind c1 (fun x => c2))
  (at level 61, c1 at next level, right associativity) : effect_scope.
Notation "c1 ;; c2" := (bind c1 (fun _ => c2))
  (at level 61, right associativity) : effect_scope.
Local Open Scope effect_scope.

(** *** Streamlit widgets *)

Definition st_title (body : string) : M unit := emit (EvTitle body).
Definition st_header (body : string) : M unit := emit (EvHeader body).
Definition st_warning (body : string) : M unit := emit (EvWarning body).
Definition st_error (body : string) : M unit := emit (EvError body).
Definition st_write (body : pyval) : M unit := emit (EvWrite body).
Definition st_sidebar_header (body : string) : M unit :=
  emit (EvSidebarHeader body).
Definition st_sidebar_info (body : string) : M unit :=
  emit (EvSidebarInfo body).

Definition st_sidebar_text_input (w : world) (label : string) : M string :=
  emit (EvSidebarTextInput label) ;; ret (sidebar_api_key w).

Definition st_text_input (w : world) (label : string) : M pyval :=
  emit (EvTextInput label) ;; ret (PyStr (entered_api_key w)).

Definition st_file_uploader (w : world) (label : string)
  : M (option pdf_file) :=
  emit (EvFileUploader label) ;; ret (file_uploader_value w).

Definition st_text_area (w : world) (label : string) : M string :=
  emit (EvTextArea label) ;; ret (text_area_value w).

Definition st_button (clicked : bool) (label : string) : M bool :=
  emit (EvButton label) ;; ret clicked.

(** *** The remote endpoint *)

(** [client.chat.completions.create] with the keyword arguments [req]:
    one request on the wire, then whatever the endpoint does. *)
Definition chat_completions_create (w : world) (c : Groq) (req : request)
  : M (exn + chat_completion) :=
  emit (EvCreate c req) ;; ret (completions_create w c req).

(** Number of completion requests in a log. *)
Fixpoint network_calls (t : trace) : nat :=
  match t with
  | [] => 0
  | EvCreate _ _ :: t' => S (network_calls t')
  | _ :: t' => network_calls t'
  end.

(** Values handed to [st.write] in a log, oldest first. *)
Fixpoint emails_displayed (t : trace) : list pyval :=
  match t with
  | [] => []
  | EvWrite body :: t' => body :: emails_displayed t'
  | _ :: t' => emails_displayed t'
  end.

(** ** Exceptions *)

(** Sequencing of calls that may raise: the first raise ends the block. *)
Definition and_then {A B : Type} (r : exn + A) (f : A -> exn + B)
  : exn + B :=
  match r with
  | inl e => inl e
  | inr a => f a
  end.

(** [try: v = body; return ok(v)  except Exception as e: handler(e)]. *)
Definition try_except {A B : Type} (body : M (exn + A))
  (handler : exn -> M B) (ok : A -> M B) : M B :=
  r <- body ;;
  match r with
  | inr a => ok a
  | inl e => handler e
  end.

(** [l[0]]. *)
Definition getitem_0 {A : Type} (l : list A) : exn + A :=
  match l with
  | [] => inl (Exception "IndexError" "list index out of range")
  | x :: _ => inr x
  end.

(** ** class ColdEmailGenerator *)

Record ColdEmailGenerator : Type := mkColdEmailGenerator {
  client : option Groq
}.

(** [ColdEmailGenerator.__init__(self, api_key)], lines 11-40. *)
Definition ColdEmailGenerator_init (w : world) (api_key : pyval)
  : M ColdEmailGenerator :=
  if truthy api_key then
    ret (mkColdEmailGenerator (Some (mkGroq api_key)))
  else
    let env_key := getenv_GROQ_API_KEY w in
    let env_key :=
      match negb (truthy env_key), secrets_GROQ_API_KEY w with
      | true, Some secret => secret
      | _, _ => env_key
      end in
    env_key <-
      (if negb (truthy env_key) then
         st_warning "Groq API Key not found. Please enter your API key." ;;
         st_text_input w "Enter your Groq API Key"
       else ret env_key) ;;
    if truthy env_key then
      ret (mkColdEmailGenerator (Some (mkGroq env_key)))
    else
      st_error "No API key provided. Cannot initialize Groq client." ;;
      ret (mkColdEmailGenerator None).

(** The loop of lines 48-51: [text] is the accumulator, a raising page
    ends the loop with the raise. *)
Fixpoint extract_pages (pages : list page) (text : string) : exn + string :=
  match pages with
  | [] => inr text
  | p :: rest =>
      and_then (extract_text p) (fun t => extract_pages rest (text ++ t))
  end.

(** [extract_text_from_pdf(self, pdf_file)], lines 42-54. *)
Definition extract_text_from_pdf (self : ColdEmailGenerator)
  (pdf : pdf_file) : M pyval :=
  try_except
    (ret (and_then (PdfReader_pages pdf)
                   (fun pages => extract_pages pages "")))
    (fun e => st_error ("Error reading PDF: " ++ py_str_exn e) ;;
              ret PyNone)
    (fun text => ret (PyStr text)).

(** The system message of lines 69-75, a triple-quoted literal: the line
    breaks and the indentation of the source are part of it. *)
Definition system_content : string :=
"You are a professional email writer specializing in cold outreach for job applications. 
                        Create a personalized, concise, and compelling cold email that:
                        1. Demonstrates knowledge of the company and role
                        2. Highlights relevant skills from the resume
                        3. Shows genuine interest in the position
                        4. Maintains a professional yet warm tone
                        5. Keeps the email to 3-4 paragraphs max".

(** The user message of line 79, an f-string. *)
Definition user_content (job_description resume_text : pyval) : string :=
  "Job Description:" ++ nl ++ py_format job_description ++ nl ++ nl
  ++ "My Resume:" ++ nl ++ py_format resume_text.

(** The keyword arguments of lines 66-84. *)
Definition completion_request (job_description resume_text : pyval)
  : request :=
  {| messages :=
       [ {| role := "system"; content := system_content |};
         {| role := "user";
            content := user_content job_description resume_text |} ];
     model := "llama3-70b-8192";
     max_tokens := 500;
     temperature := (7 # 10)%Q |}.

(** [generate_cold_email(self, job_description, resume_text)],
    lines 56-89. *)
Definition generate_cold_email (w : world) (self : ColdEmailGenerator)
  (job_description resume_text : pyval) : M pyval :=
  match client self with
  | None =>
      st_error "Groq client not initialized. Cannot generate email." ;;
      ret PyNone
  | Some c =>
      try_except
        (completion <-
           chat_completions_create w c
             (completion_request job_description resume_text) ;;
         ret (and_then completion (fun cc => getitem_0 (choices cc))))
        (fun e => st_error ("Error generating email: " ++ py_str_exn e) ;;
                  ret PyNone)
        (fun message_content => ret message_content)
  end.

(** ** main *)

Definition sidebar_instructions : string :=
"
    1. Set up Groq API Key:
       - Via .env file
       - Via Streamlit secrets
       - Manual input
    2. Upload your PDF resume
    3. Paste the job description
    4. Generate a personalized cold email
    ".

(** The form of lines 92-121: widgets drawn, generator built. *)
Definition main_form (w : world)
  : M (ColdEmailGenerator * option pdf_file * string) :=
  st_title "🚀 Cold Email Generator for Job Applications" ;;
  st_sidebar_header "Configuration" ;;
  manual_api_key <- st_sidebar_text_input w "Groq API Key (optional)" ;;
  st_sidebar_header "How to Use" ;;
  st_sidebar_info sidebar_instructions ;;
  email_generator <- ColdEmailGenerator_init w (PyStr manual_api_key) ;;
  st_header "Upload Your Resume" ;;
  uploaded_resume <- st_file_uploader w "Choose a PDF file" ;;
  st_header "Job Description" ;;
  job_description <-
    st_text_area w "Paste the full job description here" ;;
  ret (email_generator, uploaded_resume, job_description).

(** The body of [if st.button("Generate Cold Email"):], lines 125-146.
    The two [return]s are the two branches that end in a warning. *)
Definition main_generate (w : world) (email_generator : ColdEmailGenerator)
  (uploaded_resume : option pdf_file) (job_description : string) : M unit :=
  match uploaded_resume with
  | None => st_warning "Please upload your resume"
  | Some pdf =>
      if negb (truthy (PyStr job_description)) then
        st_warning "Please paste the job description"
      else
        resume_text <- extract_text_from_pdf email_generator pdf ;;
        if truthy resume_text then
          generated_email <-
            generate_cold_email w email_generator
              (PyStr job_description) resume_text ;;
          if truthy generated_email then
            st_header "Generated Cold Email" ;;
            st_write generated_email ;;
            st_button (copy_clicked w) "Copy to Clipboard" ;;
            ret tt
          else ret tt
        else ret tt
  end.

(** [main()], lines 91-146. *)
Definition main (w : world) : M unit :=
  form <- main_form w ;;
  let '(email_generator, uploaded_resume, job_description) := form in
  clicked <- st_button (generate_clicked w) "Generate Cold Email" ;;
  if clicked then
    main_generate w email_generator uploaded_resume job_description
  else ret tt.

(** ** The key resolver as the specification words it *)

(** The value the platform secret store contributes: nothing when the
    secret is not defined. *)
Definition secret_value (w : world) : pyval :=
  match secrets_GROQ_API_KEY w with
  | Some secret => secret
  | None => PyNone
  end.

(** The four credential sources, highest priority first. *)
Definition credential_sources (w : world) (api_key : pyval) : list pyval :=
  [ api_key; getenv_GROQ_API_KEY w; secret_value w;
    PyStr (entered_api_key w) ].

(** First non-empty source wins; absence when there is none. *)
Definition resolve_credential (sources : list pyval) : option pyval :=
  find truthy sources.

(** ** Vocabulary of the statements *)

(** Page [p] yields the text [t]. *)
Definition page_yields (p : page) (t : string) : Prop :=
  extract_text p = inr t.

(** The library raises [e] while the document is read: when it is opened,
    or on the first page that does not yield text. *)
Inductive raises_during_extraction (pdf : pdf_file) (e : exn) : Prop :=
| raises_on_open :
    PdfReader_pages pdf = inl e ->
    raises_during_extraction pdf e
| raises_on_page (before : list page) (texts : list string)
    (bad : page) (after : list page) :
    PdfReader_pages pdf = inr (before ++ bad :: after) ->
    Forall2 page_yields before texts ->
    extract_text bad = inl e ->
    raises_during_extraction pdf e.

(** What the try block of [generate_cold_email] evaluates to once the
    endpoint has answered: the first choice's content, or a raise. *)
Definition first_choice_content (answer : exn + chat_completion)
  : exn + pyval :=
  and_then answer (fun cc => getitem_0 (choices cc)).

(** The five numbered requirements of the system instruction. *)
Definition five_requirements : list string :=
  [ "1. Demonstrates knowledge of the company and role";
    "2. Highlights relevant skills from the resume";
    "3. Shows genuine interest in the position";
    "4. Maintains a professional yet warm tone";
    "5. Keeps the email to 3-4 paragraphs max" ].

(** [needle in haystack]. *)
Definition occurs_in (needle haystack : string) : bool :=
  match index 0 needle haystack with
  | Some _ => true
  | None => false
  end.

(** ** Sample inputs *)

Definition three_page_resume : pdf_file :=
  UploadedFile
    (inr [ Page (inr "Jane Doe. "); Page (inr ""); Page (inr "Rocq, OCaml.") ]).


(** A world in which the environment variable is set to "Y" and nothing
    else is provided. *)
Definition world_env_Y : world :=
  {| getenv_GROQ_API_KEY := PyStr "Y";
     secrets_GROQ_API_KEY := None;
     entered_api_key := "";
     sidebar_api_key := "X";
     file_uploader_value := None;
     text_area_value := "";
     generate_clicked := false;
     copy_clicked := false;
     completions_create := fun _ _ => inr (ChatCompletion []) |}.

(** A world with no credential anywhere and an endpoint that would
    answer. *)
Definition world_no_key : world :=
  {| getenv_GROQ_API_KEY := PyNone;
     secrets_GROQ_API_KEY := Some (PyStr "");
     entered_api_key := "";
     sidebar_api_key := "";
     file_uploader_value := None;
     text_area_value := "";
     generate_clicked := false;
     copy_clicked := false;
     completions_create := fun _ _ => inr (ChatCompletion [PyStr "Dear"]) |}.

(** A world with a key in the sidebar, a readable résumé, a job
    description, a click on the button and an endpoint that answers with
    two choices. *)
Definition world_ready : world :=
  {| getenv_GROQ_API_KEY := PyNone;
     secrets_GROQ_API_KEY := None;
     entered_api_key := "";
     sidebar_api_key := "gsk";
     file_uploader_value := Some three_page_resume;
     text_area_value := "Proof engineer";
     generate_clicked := true;
     copy_clicked := false;
     completions_create :=
       fun _ _ => inr (ChatCompletion [ PyStr " Dear team, "; PyStr "Hi" ]) |}.

(** The world of [world_ready] with an endpoint that refuses the key. *)
Definition world_refused : world :=
  {| getenv_GROQ_API_KEY := PyNone;
     secrets_GROQ_API_KEY := None;
     entered_api_key := "";
     sidebar_api_key := "gsk";
     file_uploader_value := Some three_page_resume;
     text_area_value := "Proof engineer";
     generate_clicked := true;
     copy_clicked := false;
     completions_create :=
       fun _ _ => inl (Exception "AuthenticationError" "Invalid API Key") |}.

(** The world of [world_ready] with a résumé of two pages without text. *)
Definition world_blank_resume : world :=
  {| getenv_GROQ_API_KEY := PyNone;
     secrets_GROQ_API_KEY := None;
     entered_api_key := "";
     sidebar_api_key := "gsk";
     file_uploader_value :=
       Some (UploadedFile (inr [ Page (inr ""); Page (inr "") ]));
     text_area_value := "Proof engineer";
     generate_clicked := true;
     copy_clicked := false;
     completions_create :=
       fun _ _ => inr (ChatCompletion [ PyStr "Dear team" ]) |}.

(** The world [w] with another answer of the "Copy to Clipboard"
    button. *)
Definition with_copy_clicked (b : bool) (w : world) : world :=
  {| getenv_GROQ_API_KEY := getenv_GROQ_API_KEY w;
     secrets_GROQ_API_KEY := secrets_GROQ_API_KEY w;
     entered_api_key := entered_api_key w;
     sidebar_api_key := sidebar_api_key w;
     file_uploader_value := file_uploader_value w;
     text_area_value := text_area_value w;
     generate_clicked := generate_clicked w;
     copy_clicked := b;
     completions_create := completions_create w |}.

(** What follows the request in the body of [main]'s [if], by the
    endpoint's answer: the error message of the generator, the three
    display widgets, or nothing. *)
Definition after_request (answer : exn + chat_completion) : trace :=
  match first_choice_content answer with
  | inl e => [ EvError ("Error generating email: " ++ py_str_exn e) ]
  | inr generated_email =>
      if truthy generated_email then
        [ EvHeader "Generated Cold Email";
          EvWrite generated_email;
          EvButton "Copy to Clipboard" ]
      else []
  end.

(** The conditions under which a run of [main] reaches the completion
    call: the button clicked, a résumé uploaded whose extracted text is
    truthy, a truthy job description, and a client. *)
Definition reaches_endpoint (w : world) : bool :=
  let self :=
    result (ColdEmailGenerator_init w (PyStr (sidebar_api_key w))) in
  generate_clicked w
  && match file_uploader_value w with
     | Some pdf => truthy (result (extract_text_from_pdf self pdf))
     | None => false
     end
  && truthy (PyStr (text_area_value w))
  && match client self with
     | Some _ => true
     | None => false
     end.

(** The world of [world_ready] without a job description and with a file
    the library cannot open. *)
Definition world_corrupt_no_description : world :=
  {| getenv_GROQ_API_KEY := PyNone;
     secrets_GROQ_API_KEY := None;
     entered_api_key := "";
     sidebar_api_key := "gsk";
     file_uploader_value :=
       Some (UploadedFile (inl (Exception "PdfReadError" "EOF marker not found")));
     text_area_value := "";
     generate_clicked := true;
     copy_clicked := false;
     completions_create :=
       fun _ _ => inr (ChatCompletion [ PyStr "Dear team" ]) |}.

(** A world whose only credential is a secret written as the number 123
    in the secrets file. *)
Definition world_integer_secret : world :=
  {| getenv_GROQ_API_KEY := PyNone;
     secrets_GROQ_API_KEY := Some (PyObj true "123");
     entered_api_key := "";
     sidebar_api_key := "";
     file_uploader_value := None;
     text_area_value := "";
     generate_clicked := false;
     copy_clicked := false;
     completions_create := fun _ _ => inr (ChatCompletion []) |}.

(** The world of [world_ready] with an endpoint that reports a rate
    limit. *)
Definition world_rate_limited : world :=
  {| getenv_GROQ_API_KEY := PyNone;
     secrets_GROQ_API_KEY := None;
     entered_api_key := "";
     sidebar_api_key := "gsk";
     file_uploader_value := Some three_page_resume;
     text_area_value := "Proof engineer";
     generate_clicked := true;
     copy_clicked := false;
     completions_create :=
       fun _ _ => inl (Exception "RateLimitError" "Rate limit reached") |}.


(** ** Basic facts *)

Section EffectLaws.

Context {A B : Type}.
Variables (m : M A) (f : A -> M B).

Lemma result_bind : result (bind m f) = result (f (result m)).
Proof.
  unfold bind, result. destruct m as [a t1]. simpl.
  destruct (f a) as [b t2]. reflexivity.
Qed.

Lemma log_bind : log (bind m f) = log m ++ log (f (result m)).
Proof.
  unfold bind, result, log. destruct m as [a t1]. simpl.
  destruct (f a) as [b t2]. reflexivity.
Qed.

End EffectLaws.

Lemma network_calls_app (t1 t2 : trace) :
  network_calls (t1 ++ t2) = network_calls t1 + network_calls t2.
Proof.
  induction t1 as [|e t1 IH]; simpl; [reflexivity|].
  destruct e; simpl; rewrite IH; reflexivity.
Qed.

Lemma emails_displayed_app (t1 t2 : trace) :
  emails_displayed (t1 ++ t2) = emails_displayed t1 ++ emails_displayed t2.
Proof.
  induction t1 as [|e t1 IH]; simpl; [reflexivity|].
  destruct e; simpl; rewrite IH; reflexivity.
Qed.

Lemma truthy_PyStr (s : string) : truthy (PyStr s) = true <-> s <> "".
Proof.
  destruct s; simpl; split; intro H; try congruence; reflexivity.
Qed.

Lemma truthy_not_None (v : pyval) : truthy v = true -> v <> PyNone.
Proof. destruct v; simpl; congruence. Qed.

Lemma append_nil_r (s : string) : (s ++ "")%string = s.
Proof. induction s as [|a s IH]; simpl; [|rewrite IH]; reflexivity. Qed.

Lemma append_assoc (s1 s2 s3 : string) :
  ((s1 ++ s2) ++ s3 = s1 ++ s2 ++ s3)%string.
Proof. induction s1 as [|a s1 IH]; simpl; [|rewrite IH]; reflexivity. Qed.

Lemma concat_empty_cons (t : string) (texts : list string) :
  String.concat "" (t :: texts) = (t ++ String.concat "" texts)%string.
Proof.
  destruct texts as [|u texts]; simpl; [rewrite append_nil_r|]; reflexivity.
Qed.

(** The string literals of the program, pinned by their byte counts in
    the source file. *)
Example system_content_length : String.length system_content = 517%nat.
Proof. reflexivity. Qed.

Example sidebar_instructions_length :
  String.length sidebar_instructions = 214%nat.
Proof. reflexivity. Qed.

(** ** The key resolver *)

Ltac split_sources w api_key :=
  destruct w as [env secret entered sidebar upload area clicked copy remote];
  destruct api_key as [|[|? ?]|[|] ?];
  destruct env as [|[|? ?]|[|] ?];
  destruct secret as [[|[|? ?]|[|] ?]|];
  destruct entered as [|? ?].

Lemma init_client (w : world) (api_key : pyval) :
  client (result (ColdEmailGenerator_init w api_key))
  = option_map mkGroq (resolve_credential (credential_sources w api_key)).
Proof. split_sources w api_key; reflexivity. Qed.

Lemma init_no_network (w : world) (api_key : pyval) :
  network_calls (log (ColdEmailGenerator_init w api_key)) = 0.
Proof. split_sources w api_key; reflexivity. Qed.

Lemma init_no_display (w : world) (api_key : pyval) :
  emails_displayed (log (ColdEmailGenerator_init w api_key)) = [].
Proof. split_sources w api_key; reflexivity. Qed.

(** C1.  The constructor binds the client to the first non-empty of the
    four credential sources, taken in the order explicit argument,
    environment variable, platform secret, interactive entry; the sources
    after the selected one play no part: each case below holds whatever
    they contain, and the user is prompted only when the first three are
    all empty.  In particular a non-empty explicit argument is used
    whatever the environment variable holds. *)
Theorem key_resolver_priority (w : world) (api_key : pyval) :
  client (result (ColdEmailGenerator_init w api_key))
  = option_map mkGroq (resolve_credential (credential_sources w api_key))
  /\ (truthy api_key = true ->
      ColdEmailGenerator_init w api_key
      = (mkColdEmailGenerator (Some (mkGroq api_key)), []))
  /\ (truthy api_key = false ->
      truthy (getenv_GROQ_API_KEY w) = true ->
      ColdEmailGenerator_init w api_key
      = (mkColdEmailGenerator (Some (mkGroq (getenv_GROQ_API_KEY w))), []))
  /\ (truthy api_key = false ->
      truthy (getenv_GROQ_API_KEY w) = false ->
      truthy (secret_value w) = true ->
      ColdEmailGenerator_init w api_key
      = (mkColdEmailGenerator (Some (mkGroq (secret_value w))), []))
  /\ (truthy api_key = false ->
      truthy (getenv_GROQ_API_KEY w) = false ->
      truthy (secret_value w) = false ->
      truthy (PyStr (entered_api_key w)) = true ->
      ColdEmailGenerator_init w api_key
      = (mkColdEmailGenerator (Some (mkGroq (PyStr (entered_api_key w)))),
         [ EvWarning "Groq API Key not found. Please enter your API key.";
           EvTextInput "Enter your Groq API Key" ])).
Proof.
  split; [apply init_client|].
  split_sources w api_key; simpl; repeat split; intros;
    try discriminate; reflexivity.
Qed.

Lemma key_resolver_priority_witness :
  ColdEmailGenerator_init world_env_Y (PyStr "X")
  = (mkColdEmailGenerator (Some (mkGroq (PyStr "X"))), []).
Proof.
  apply (proj1 (proj2 (key_resolver_priority world_env_Y (PyStr "X")))).
  reflexivity.
Defined.

(** C2.  When the explicit argument, the environment variable, the
    platform secret and the interactive entry are all empty or absent, the
    constructor contacts no endpoint and leaves the client at None, and
    [generate_cold_email] on that object returns None at once: its only
    effect is the error message, and it issues no completion request,
    whatever the arguments and whatever the endpoint would answer. *)
Theorem no_credential_no_request (w : world)
  (api_key job_description resume_text : pyval) :
  truthy api_key = false ->
  truthy (getenv_GROQ_API_KEY w) = false ->
  truthy (secret_value w) = false ->
  truthy (PyStr (entered_api_key w)) = false ->
  let self := result (ColdEmailGenerator_init w api_key) in
  client self = None
  /\ network_calls (log (ColdEmailGenerator_init w api_key)) = 0
  /\ generate_cold_email w self job_description resume_text
     = (PyNone,
        [ EvError "Groq client not initialized. Cannot generate email." ])
  /\ network_calls
       (log (generate_cold_email w self job_description resume_text)) = 0.
Proof.
  intros Harg Henv Hsecret Hentry self.
  assert (Hnone : client self = None).
  { unfold self. rewrite init_client.
    unfold resolve_credential, credential_sources, find.
    rewrite Harg, Henv, Hsecret, Hentry. reflexivity. }
  split; [exact Hnone|]. split; [apply init_no_network|].
  unfold generate_cold_email. rewrite Hnone. split; reflexivity.
Qed.

Lemma no_credential_no_request_witness :
  generate_cold_email world_no_key
    (result (ColdEmailGenerator_init world_no_key (PyStr "")))
    (PyStr "job") (PyStr "cv")
  = (PyNone,
     [ EvError "Groq client not initialized. Cannot generate email." ]).
Proof.
  apply (no_credential_no_request world_no_key (PyStr "") (PyStr "job")
           (PyStr "cv")); reflexivity.
Defined.

(** ** The résumé text extractor *)

Lemma extract_pages_yields (pages : list page) (texts : list string) :
  Forall2 page_yields pages texts ->
  forall text,
    extract_pages pages text = inr (text ++ String.concat "" texts)%string.
Proof.
  induction 1 as [|p t pages texts Hp _ IH]; intro text.
  - simpl. now rewrite append_nil_r.
  - rewrite concat_empty_cons. cbn [extract_pages].
    rewrite Hp. cbn [and_then]. rewrite IH. now rewrite append_assoc.
Qed.

Lemma extract_pages_raises (before : list page) (texts : list string)
  (bad : page) (after : list page) (e : exn) :
  Forall2 page_yields before texts ->
  extract_text bad = inl e ->
  forall text, extract_pages (before ++ bad :: after) text = inl e.
Proof.
  intros Hbefore Hbad.
  induction Hbefore as [|p t before texts Hp _ IH]; intro text;
    cbn [extract_pages app].
  - now rewrite Hbad.
  - rewrite Hp. cbn [and_then]. apply IH.
Qed.

Lemma extract_no_network (self : ColdEmailGenerator) (pdf : pdf_file) :
  network_calls (log (extract_text_from_pdf self pdf)) = 0.
Proof.
  destruct pdf as [[e|pages]]; cbn; [reflexivity|].
  destruct (extract_pages pages ""); reflexivity.
Qed.

Lemma extract_raises (self : ColdEmailGenerator) (pdf : pdf_file)
  (e : exn) :
  raises_during_extraction pdf e ->
  extract_text_from_pdf self pdf
  = (PyNone, [ EvError ("Error reading PDF: " ++ py_str_exn e) ]).
Proof.
  intros [Hopen | before texts bad after Hopen Hbefore Hbad];
    unfold extract_text_from_pdf; rewrite Hopen; cbn [and_then].
  - reflexivity.
  - now rewrite (extract_pages_raises _ _ _ after _ Hbefore Hbad).
Qed.

Lemma extract_pages_no_text (pages : list page) :
  Forall (fun p => page_yields p "") pages ->
  forall text, extract_pages pages text = inr text.
Proof.
  induction 1 as [|p pages Hp _ IH]; intro text; cbn [extract_pages].
  - reflexivity.
  - rewrite Hp. cbn [and_then]. rewrite append_nil_r. apply IH.
Qed.

Lemma extract_silent_on_success (self : ColdEmailGenerator)
  (pdf : pdf_file) (text : string) :
  result (extract_text_from_pdf self pdf) = PyStr text ->
  log (extract_text_from_pdf self pdf) = [].
Proof.
  destruct pdf as [[e|pages]]; cbn; [discriminate|].
  destruct (extract_pages pages ""); cbn; [discriminate|reflexivity].
Qed.

(** C6.  For a document the library opens and whose pages all yield text,
    whatever their number, [extract_text_from_pdf] returns the texts of the
    pages joined in page order with nothing between them, and reports no
    error. *)
Theorem extract_text_concatenates_pages (self : ColdEmailGenerator)
  (pdf : pdf_file) (pages : list page) (texts : list string) :
  PdfReader_pages pdf = inr pages ->
  Forall2 page_yields pages texts ->
  extract_text_from_pdf self pdf = (PyStr (String.concat "" texts), []).
Proof.
  intros Hopen Hpages. unfold extract_text_from_pdf.
  rewrite Hopen. cbn [and_then].
  now rewrite (extract_pages_yields _ _ Hpages).
Qed.

Lemma extract_text_concatenates_pages_witness :
  extract_text_from_pdf (mkColdEmailGenerator None) three_page_resume
  = (PyStr "Jane Doe. Rocq, OCaml.", []).
Proof.
  apply (extract_text_concatenates_pages (mkColdEmailGenerator None)
           three_page_resume
           [ Page (inr "Jane Doe. "); Page (inr ""); Page (inr "Rocq, OCaml.") ]
           [ "Jane Doe. "; ""; "Rocq, OCaml." ]).
  - reflexivity.
  - repeat constructor.
Defined.

(** ** The email generator *)

Lemma generate_with_client (w : world) (self : ColdEmailGenerator)
  (c : Groq) (job_description resume_text : pyval) :
  client self = Some c ->
  let req := completion_request job_description resume_text in
  generate_cold_email w self job_description resume_text
  = match first_choice_content (completions_create w c req) with
    | inr message_content => (message_content, [ EvCreate c req ])
    | inl e =>
        (PyNone,
         [ EvCreate c req;
           EvError ("Error generating email: " ++ py_str_exn e) ])
    end.
Proof.
  intros Hc req. unfold generate_cold_email. rewrite Hc.
  unfold try_except, chat_completions_create, first_choice_content.
  fold req. cbn [bind emit ret app].
  destruct (and_then (completions_create w c req)
              (fun cc => getitem_0 (choices cc))); reflexivity.
Qed.

Lemma generate_without_client (w : world) (self : ColdEmailGenerator)
  (job_description resume_text : pyval) :
  client self = None ->
  generate_cold_email w self job_description resume_text
  = (PyNone,
     [ EvError "Groq client not initialized. Cannot generate email." ]).
Proof. intro Hc. unfold generate_cold_email. now rewrite Hc. Qed.

Lemma generate_one_request (w : world) (self : ColdEmailGenerator)
  (c : Groq) (job_description resume_text : pyval) :
  client self = Some c ->
  network_calls
    (log (generate_cold_email w self job_description resume_text)) = 1.
Proof.
  intro Hc. rewrite (generate_with_client w self c _ _ Hc).
  destruct (first_choice_content _); reflexivity.
Qed.

(** C4.  With a client, [generate_cold_email] issues exactly one completion
    request, before anything else it does.  The request carries exactly two
    messages in this order: a system message whose content is a constant
    that lists the five requirements, and a user message whose content is
    the job description and then the résumé text, both unchanged, under
    their two headings.  The model is the constant "llama3-70b-8192",
    max_tokens is 500 and temperature is 0.7. *)
Theorem generate_request_shape (w : world) (c : Groq)
  (job_description resume_text : string) :
  exists (req : request) (system user : message) (after : trace),
    log (generate_cold_email w (mkColdEmailGenerator (Some c))
           (PyStr job_description) (PyStr resume_text))
    = EvCreate c req :: after
    /\ network_calls after = 0
    /\ messages req = [ system; user ]
    /\ role system = "system"
    /\ content system = system_content
    /\ forallb (fun r => occurs_in r (content system)) five_requirements
       = true
    /\ role user = "user"
    /\ content user
       = ("Job Description:" ++ nl ++ job_description ++ nl ++ nl
          ++ "My Resume:" ++ nl ++ resume_text)%string
    /\ model req = "llama3-70b-8192"
    /\ max_tokens req = 500%Z
    /\ (temperature req == 7 # 10)%Q.
Proof.
  set (jd := PyStr job_description). set (rt := PyStr resume_text).
  exists (completion_request jd rt),
    {| role := "system"; content := system_content |},
    {| role := "user"; content := user_content jd rt |}.
  rewrite (generate_with_client w (mkColdEmailGenerator (Some c)) c jd rt
             eq_refl).
  destruct (first_choice_content _) as [e|message_content];
    eexists; (split; [reflexivity|]);
    repeat split; vm_compute; reflexivity.
Qed.

(** C5.  With a client, when the endpoint answers the request with at
    least one choice, [generate_cold_email] returns the content of the
    first choice as it is, after that one request and with no other
    effect.  This holds for every job description and résumé text, the
    non-empty and non-null ones included. *)
Theorem generate_returns_first_choice (w : world)
  (self : ColdEmailGenerator) (c : Groq)
  (job_description resume_text first : pyval) (others : list pyval) :
  client self = Some c ->
  completions_create w c (completion_request job_description resume_text)
  = inr (ChatCompletion (first :: others)) ->
  generate_cold_email w self job_description resume_text
  = (first,
     [ EvCreate c (completion_request job_description resume_text) ]).
Proof.
  intros Hc Hanswer. rewrite (generate_with_client w self c _ _ Hc).
  now rewrite Hanswer.
Qed.

Lemma generate_returns_first_choice_witness :
  generate_cold_email world_ready
    (mkColdEmailGenerator (Some (mkGroq (PyStr "gsk"))))
    (PyStr "Proof engineer") (PyStr "Jane Doe. Rocq, OCaml.")
  = (PyStr " Dear team, ",
     [ EvCreate (mkGroq (PyStr "gsk"))
         (completion_request (PyStr "Proof engineer")
            (PyStr "Jane Doe. Rocq, OCaml.")) ]).
Proof.
  apply (generate_returns_first_choice world_ready
           (mkColdEmailGenerator (Some (mkGroq (PyStr "gsk"))))
           (mkGroq (PyStr "gsk")) (PyStr "Proof engineer")
           (PyStr "Jane Doe. Rocq, OCaml.") (PyStr " Dear team, ")
           [ PyStr "Hi" ]); reflexivity.
Defined.

(** Counterexample to C8 as worded: two causes do not surface
    identically.  A refused
    key and a rate limit, raised on the same request of the same client,
    give two different error messages. *)
Lemma remote_failures_show_their_text :
  let self := mkColdEmailGenerator (Some (mkGroq (PyStr "gsk"))) in
  let req := completion_request (PyStr "Proof engineer") (PyStr "cv") in
  completions_create world_refused (mkGroq (PyStr "gsk")) req
  = inl (Exception "AuthenticationError" "Invalid API Key")
  /\ completions_create world_rate_limited (mkGroq (PyStr "gsk")) req
     = inl (Exception "RateLimitError" "Rate limit reached")
  /\ generate_cold_email world_refused self
       (PyStr "Proof engineer") (PyStr "cv")
     <> generate_cold_email world_rate_limited self
          (PyStr "Proof engineer") (PyStr "cv").
Proof.
  cbv zeta. split; [reflexivity|]. split; [reflexivity|].
  vm_compute. discriminate.
Qed.

(** C8 (amended).  With a client, when the completion call raises,
    [generate_cold_email] returns None: the raise does not leave the
    function.  The log holds the one request and then one error message,
    so the call is not repeated.  Every cause is handled the same way:
    another failure of the same request gives the same result, None, and
    the same single request, and its message is the same fixed prefix
    followed by the exception's text.  The handler looks at nothing of the
    exception but that text, so two failures give the same outcome exactly
    when their texts are equal, whatever their classes. *)
Theorem generate_catches_remote_failure (w : world)
  (self : ColdEmailGenerator) (c : Groq)
  (job_description resume_text : pyval) (e : exn) :
  client self = Some c ->
  completions_create w c (completion_request job_description resume_text)
  = inl e ->
  generate_cold_email w self job_description resume_text
  = (PyNone,
     [ EvCreate c (completion_request job_description resume_text);
       EvError ("Error generating email: " ++ exn_message e) ])
  /\ network_calls
       (log (generate_cold_email w self job_description resume_text)) = 1
  /\ forall (w' : world) (e' : exn),
       completions_create w' c
         (completion_request job_description resume_text) = inl e' ->
       generate_cold_email w' self job_description resume_text
       = (PyNone,
          [ EvCreate c (completion_request job_description resume_text);
            EvError ("Error generating email: " ++ exn_message e') ])
       /\ (generate_cold_email w' self job_description resume_text
           = generate_cold_email w self job_description resume_text
           <-> exn_message e' = exn_message e).
Proof.
  intros Hc Hraise.
  assert (Hfail : forall (w0 : world) (e0 : exn),
             completions_create w0 c
               (completion_request job_description resume_text) = inl e0 ->
             generate_cold_email w0 self job_description resume_text
             = (PyNone,
                [ EvCreate c
                    (completion_request job_description resume_text);
                  EvError ("Error generating email: " ++ exn_message e0) ])).
  { intros w0 e0 H0. rewrite (generate_with_client w0 self c _ _ Hc).
    now rewrite H0. }
  split; [now apply Hfail|].
  split; [now apply generate_one_request with c|].
  intros w' e' Hraise'. split; [now apply Hfail|].
  rewrite (Hfail w e Hraise), (Hfail w' e' Hraise'). split.
  - intro Hsame. injection Hsame as Hsame. exact Hsame.
  - now intros ->.
Qed.

Lemma generate_catches_remote_failure_witness :
  generate_cold_email world_refused
    (mkColdEmailGenerator (Some (mkGroq (PyStr "gsk"))))
    (PyStr "Proof engineer") (PyStr "cv")
  = (PyNone,
     [ EvCreate (mkGroq (PyStr "gsk"))
         (completion_request (PyStr "Proof engineer") (PyStr "cv"));
       EvError "Error generating email: Invalid API Key" ]).
Proof.
  apply (generate_catches_remote_failure world_refused
           (mkColdEmailGenerator (Some (mkGroq (PyStr "gsk"))))
           (mkGroq (PyStr "gsk")) (PyStr "Proof engineer") (PyStr "cv")
           (Exception "AuthenticationError" "Invalid API Key"));
    reflexivity.
Defined.

(** ** The run of main *)

Lemma main_form_result (w : world) :
  result (main_form w)
  = (result (ColdEmailGenerator_init w (PyStr (sidebar_api_key w))),
     file_uploader_value w, text_area_value w).
Proof.
  unfold main_form. repeat rewrite result_bind. reflexivity.
Qed.

Lemma main_form_no_network (w : world) :
  network_calls (log (main_form w)) = 0.
Proof.
  unfold main_form.
  repeat (rewrite log_bind, network_calls_app; cbn [log result snd fst
    st_title st_sidebar_header st_sidebar_info st_header emit
    network_calls Nat.add]).
  rewrite init_no_network. reflexivity.
Qed.

Lemma main_form_no_display (w : world) :
  emails_displayed (log (main_form w)) = [].
Proof.
  unfold main_form.
  repeat (rewrite log_bind, emails_displayed_app; cbn [log result snd fst
    st_title st_sidebar_header st_sidebar_info st_header emit
    emails_displayed app]).
  rewrite init_no_display. reflexivity.
Qed.

(** The log of [main]: the form, the button, and the body of the [if] when
    the button was clicked. *)
Lemma main_log (w : world) :
  log (main w)
  = log (main_form w)
    ++ EvButton "Generate Cold Email"
    :: (if generate_clicked w then
          log (main_generate w
                 (result (ColdEmailGenerator_init w
                            (PyStr (sidebar_api_key w))))
                 (file_uploader_value w) (text_area_value w))
        else []).
Proof.
  unfold main. rewrite log_bind, main_form_result.
  f_equal. rewrite log_bind. cbn [st_button bind emit ret log snd result fst app].
  destruct (generate_clicked w); reflexivity.
Qed.

Lemma main_generate_no_resume (w : world) (self : ColdEmailGenerator)
  (job_description : string) :
  main_generate w self None job_description
  = (tt, [ EvWarning "Please upload your resume" ]).
Proof. reflexivity. Qed.

Lemma main_generate_no_description (w : world) (self : ColdEmailGenerator)
  (uploaded_resume : pdf_file) :
  main_generate w self (Some uploaded_resume) ""
  = (tt, [ EvWarning "Please paste the job description" ]).
Proof. reflexivity. Qed.

(** When the extractor's result is falsy, [main] adds nothing to what the
    extractor did. *)
Lemma main_generate_falsy_text (w : world) (self : ColdEmailGenerator)
  (pdf : pdf_file) (job_description : string) :
  job_description <> "" ->
  truthy (result (extract_text_from_pdf self pdf)) = false ->
  main_generate w self (Some pdf) job_description
  = (tt, log (extract_text_from_pdf self pdf)).
Proof.
  intros Hjd Htext. apply truthy_PyStr in Hjd.
  unfold main_generate. rewrite Hjd. cbn [negb].
  destruct (extract_text_from_pdf self pdf) as [resume_text t].
  cbn [result log fst snd] in *. cbn [bind]. rewrite Htext.
  cbn [ret]. now rewrite app_nil_r.
Qed.

(** When the extractor's result is truthy, [main] calls the generator and
    displays its result if that is truthy. *)
Lemma main_generate_truthy_text (w : world) (self : ColdEmailGenerator)
  (pdf : pdf_file) (job_description : string) :
  job_description <> "" ->
  truthy (result (extract_text_from_pdf self pdf)) = true ->
  let resume_text := result (extract_text_from_pdf self pdf) in
  let generation :=
    generate_cold_email w self (PyStr job_description) resume_text in
  log (main_generate w self (Some pdf) job_description)
  = log (extract_text_from_pdf self pdf)
    ++ log generation
    ++ (if truthy (result generation) then
          [ EvHeader "Generated Cold Email";
            EvWrite (result generation);
            EvButton "Copy to Clipboard" ]
        else []).
Proof.
  intros Hjd Htext resume_text generation. apply truthy_PyStr in Hjd.
  unfold main_generate. rewrite Hjd. cbn [negb].
  rewrite log_bind. fold resume_text. unfold resume_text at 1.
  rewrite Htext. rewrite log_bind. fold generation.
  destruct (truthy (result generation)); reflexivity.
Qed.

Lemma main_generate_network (w : world) (self : ColdEmailGenerator)
  (uploaded_resume : option pdf_file) (job_description : string) :
  network_calls
    (log (main_generate w self uploaded_resume job_description)) <> 0 ->
  exists pdf,
    uploaded_resume = Some pdf
    /\ job_description <> ""
    /\ truthy (result (extract_text_from_pdf self pdf)) = true
    /\ client self <> None.
Proof.
  intro Hcalls. destruct uploaded_resume as [pdf|];
    [|now rewrite main_generate_no_resume in Hcalls].
  destruct job_description as [|a jd];
    [now rewrite main_generate_no_description in Hcalls|].
  assert (Hjd : String a jd <> "") by discriminate.
  exists pdf. split; [reflexivity|]. split; [exact Hjd|].
  destruct (truthy (result (extract_text_from_pdf self pdf))) eqn:Htext.
  - split; [reflexivity|]. intro Hnone. apply Hcalls.
    rewrite (main_generate_truthy_text w self pdf _ Hjd Htext).
    rewrite (generate_without_client w self _ _ Hnone).
    rewrite network_calls_app, extract_no_network. reflexivity.
  - exfalso. apply Hcalls.
    rewrite (main_generate_falsy_text w self pdf _ Hjd Htext).
    apply extract_no_network.
Qed.

(** C3.  If a run of [main] issues a completion request, then a résumé was
    uploaded and its extracted text is not None, the job description is not
    empty, and the generator's client was initialised from a resolved
    credential.  So when one of the three is missing, a run of [main]
    issues no request. *)
Theorem main_request_needs_all_inputs (w : world) :
  network_calls (log (main w)) <> 0 ->
  let self :=
    result (ColdEmailGenerator_init w (PyStr (sidebar_api_key w))) in
  (exists pdf,
      file_uploader_value w = Some pdf
      /\ result (extract_text_from_pdf self pdf) <> PyNone)
  /\ text_area_value w <> ""
  /\ client self <> None.
Proof.
  intros Hcalls self. rewrite main_log in Hcalls.
  rewrite network_calls_app, main_form_no_network in Hcalls.
  cbn [network_calls Nat.add] in Hcalls.
  destruct (generate_clicked w); [|now elim Hcalls].
  apply main_generate_network in Hcalls.
  destruct Hcalls as (pdf & Hup & Hjd & Htext & Hclient).
  split; [|split; assumption].
  exists pdf. split; [exact Hup|]. now apply truthy_not_None.
Qed.

Lemma main_request_needs_all_inputs_witness :
  let self :=
    result (ColdEmailGenerator_init world_ready
              (PyStr (sidebar_api_key world_ready))) in
  (exists pdf,
      file_uploader_value world_ready = Some pdf
      /\ result (extract_text_from_pdf self pdf) <> PyNone)
  /\ text_area_value world_ready <> ""
  /\ client self <> None.
Proof.
  apply (main_request_needs_all_inputs world_ready).
  vm_compute. discriminate.
Defined.



(** C9.  With a client, [generate_cold_email] issues its completion request
    for every pair of arguments, the empty job description and the empty or
    None résumé text included: it checks neither.  The checks are those of
    [main], which issues no request when the job description is empty or
    when the extracted text is None or empty. *)
Theorem generate_does_not_validate (w : world) (self : ColdEmailGenerator)
  (c : Groq) :
  client self = Some c ->
  (forall job_description resume_text : pyval,
      exists after : trace,
        log (generate_cold_email w self job_description resume_text)
        = EvCreate c (completion_request job_description resume_text)
          :: after
        /\ network_calls after = 0)
  /\ (forall uploaded_resume : option pdf_file,
        network_calls (log (main_generate w self uploaded_resume "")) = 0)
  /\ (forall (pdf : pdf_file) (job_description : string),
        truthy (result (extract_text_from_pdf self pdf)) = false ->
        network_calls
          (log (main_generate w self (Some pdf) job_description)) = 0).
Proof.
  intro Hc. split; [|split].
  - intros jd rt. rewrite (generate_with_client w self c jd rt Hc).
    destruct (first_choice_content _); eexists; split; reflexivity.
  - intros [pdf|]; reflexivity.
  - intros pdf [|a jd] Htext; [reflexivity|].
    rewrite main_generate_falsy_text; [|discriminate|exact Htext].
    apply extract_no_network.
Qed.

Lemma generate_does_not_validate_witness :
  exists after : trace,
    log (generate_cold_email world_ready
           (mkColdEmailGenerator (Some (mkGroq (PyStr "gsk"))))
           (PyStr "") PyNone)
    = EvCreate (mkGroq (PyStr "gsk")) (completion_request (PyStr "") PyNone)
      :: after
    /\ network_calls after = 0.
Proof.
  apply (proj1 (generate_does_not_validate world_ready
                  (mkColdEmailGenerator (Some (mkGroq (PyStr "gsk"))))
                  (mkGroq (PyStr "gsk")) eq_refl)).
Defined.

(** C10.  In a run of [main] with the button clicked, a résumé uploaded and
    a job description given:
    - when the document opens and none of its pages holds text, the
      extractor succeeds with the empty string and reports nothing, and
      [main] does nothing after the button: no request, no message, no
      email;
    - when extraction fails, [main] likewise does nothing after the
      extractor's own error message;
    - when the extracted text is not empty and the endpoint answers with a
      first choice whose content is empty or None, the one request is all
      that follows the button: no email is displayed. *)
Theorem main_tests_truthiness (w : world) (pdf : pdf_file) :
  generate_clicked w = true ->
  file_uploader_value w = Some pdf ->
  text_area_value w <> "" ->
  let self :=
    result (ColdEmailGenerator_init w (PyStr (sidebar_api_key w))) in
  (forall pages : list page,
      PdfReader_pages pdf = inr pages ->
      Forall (fun p => page_yields p "") pages ->
      extract_text_from_pdf self pdf = (PyStr "", [])
      /\ log (main w)
         = log (main_form w) ++ [ EvButton "Generate Cold Email" ])
  /\ (forall e : exn,
        raises_during_extraction pdf e ->
        log (main w)
        = log (main_form w)
          ++ [ EvButton "Generate Cold Email";
               EvError ("Error reading PDF: " ++ exn_message e) ])
  /\ (forall (c : Groq) (text : string) (first : pyval)
             (others : list pyval),
        client self = Some c ->
        result (extract_text_from_pdf self pdf) = PyStr text ->
        text <> "" ->
        completions_create w c
          (completion_request (PyStr (text_area_value w)) (PyStr text))
        = inr (ChatCompletion (first :: others)) ->
        truthy first = false ->
        log (main w)
        = log (main_form w)
          ++ [ EvButton "Generate Cold Email";
               EvCreate c
                 (completion_request (PyStr (text_area_value w))
                    (PyStr text)) ]
        /\ emails_displayed (log (main w)) = []).
Proof.
  intros Hclick Hup Hjd self. rewrite main_log, Hclick, Hup. fold self.
  split; [|split].
  - intros pages Hopen Hpages.
    assert (Hextract : extract_text_from_pdf self pdf = (PyStr "", [])).
    { unfold extract_text_from_pdf. rewrite Hopen. cbn [and_then].
      now rewrite (extract_pages_no_text pages Hpages). }
    split; [exact Hextract|].
    rewrite main_generate_falsy_text; [|exact Hjd|now rewrite Hextract].
    now rewrite Hextract.
  - intros e Hraise.
    pose proof (extract_raises self pdf e Hraise) as Hextract.
    rewrite main_generate_falsy_text; [|exact Hjd|now rewrite Hextract].
    now rewrite Hextract.
  - intros c text first others Hc Htext Hnonempty Hanswer Hfirst.
    assert (Hlog :
      log (main_generate w self (Some pdf) (text_area_value w))
      = [ EvCreate c
            (completion_request (PyStr (text_area_value w))
               (PyStr text)) ]).
    { rewrite main_generate_truthy_text;
        [|exact Hjd|rewrite Htext; now apply truthy_PyStr].
      rewrite (extract_silent_on_success self pdf text Htext), Htext.
      rewrite (generate_with_client w self c _ _ Hc), Hanswer.
      cbn [first_choice_content and_then getitem_0 choices result log
           fst snd].
      rewrite Hfirst. reflexivity. }
    rewrite Hlog. split; [reflexivity|].
    rewrite emails_displayed_app, main_form_no_display. reflexivity.
Qed.

Lemma main_tests_truthiness_witness :
  log (main world_blank_resume)
  = log (main_form world_blank_resume) ++ [ EvButton "Generate Cold Email" ].
Proof.
  apply (proj1 (main_tests_truthiness world_blank_resume
                  (UploadedFile (inr [ Page (inr ""); Page (inr "") ]))
                  eq_refl eq_refl ltac:(discriminate))
           [ Page (inr ""); Page (inr "") ]).
  - reflexivity.
  - repeat constructor.
Defined.

(** ** Further properties of the extractor *)

(** Every list of pages either yields text throughout or has a first page
    that raises. *)
Lemma pages_yield_or_raise (pages : list page) :
  (exists texts, Forall2 page_yields pages texts)
  \/ (exists before texts bad after e,
        pages = before ++ bad :: after
        /\ Forall2 page_yields before texts
        /\ extract_text bad = inl e).
Proof.
  induction pages as [|p pages IH].
  - left. exists []. constructor.
  - destruct (extract_text p) as [e|t] eqn:Hp.
    + right. exists [], [], p, pages, e. repeat split; [constructor|exact Hp].
    + destruct IH as [[texts Hall] | (before & texts & bad & after & e
                                       & Hsplit & Hbefore & Hbad)].
      * left. exists (t :: texts). now constructor.
      * right. exists (p :: before), (t :: texts), bad, after, e.
        repeat split; [now rewrite Hsplit|now constructor|exact Hbad].
Qed.

(** X1.  For every uploaded file, [extract_text_from_pdf] does one of two
    things: the file opens and all pages yield text, and it returns their
    concatenation without any message; or the library raises, at opening or
    on a first bad page, and it returns None with exactly one error
    message.  So None is returned exactly when an error was shown. *)
Theorem extract_succeeds_or_reports (self : ColdEmailGenerator)
  (pdf : pdf_file) :
  (exists pages texts,
      PdfReader_pages pdf = inr pages
      /\ Forall2 page_yields pages texts
      /\ extract_text_from_pdf self pdf
         = (PyStr (String.concat "" texts), []))
  \/ (exists e,
        raises_during_extraction pdf e
        /\ extract_text_from_pdf self pdf
           = (PyNone, [ EvError ("Error reading PDF: " ++ exn_message e) ])).
Proof.
  destruct (PdfReader_pages pdf) as [e|pages] eqn:Hopen.
  - right. exists e.
    assert (Hraise : raises_during_extraction pdf e)
      by now apply raises_on_open.
    split; [exact Hraise|now apply extract_raises].
  - destruct (pages_yield_or_raise pages)
      as [[texts Hall] | (before & texts & bad & after & e
                          & Hsplit & Hbefore & Hbad)].
    + left. exists pages, texts. split; [reflexivity|]. split; [exact Hall|].
      unfold extract_text_from_pdf. rewrite Hopen. cbn [and_then].
      now rewrite (extract_pages_yields _ _ Hall).
    + right. exists e.
      assert (Hraise : raises_during_extraction pdf e).
      { apply (raises_on_page pdf e before texts bad after);
          [now rewrite Hopen, Hsplit|exact Hbefore|exact Hbad]. }
      split; [exact Hraise|now apply extract_raises].
Qed.

(** X2.  The page loop composes over a document cut in two: running it on
    [first ++ second] is running it on [first] and, if no page of [first]
    raised, going on with [second] from the text accumulated so far; a
    raise in [first] is the result and [second] is not read. *)
Theorem extract_pages_app (first second : list page) (text : string) :
  extract_pages (first ++ second) text
  = and_then (extract_pages first text)
             (fun so_far => extract_pages second so_far).
Proof.
  revert text. induction first as [|p first IH]; intro text.
  - reflexivity.
  - cbn [app extract_pages].
    destruct (extract_text p) as [e|t]; cbn [and_then];
      [reflexivity|apply IH].
Qed.

(** ** Further properties of the key resolver *)

(** X3.  The constructor never builds a client from None, from an empty
    string or from any other falsy value: the key of an initialised client
    is one of the four credential sources, taken as it is, and it is
    truthy.  A secret that is not a string is passed on unconverted. *)
Theorem init_client_key_nonempty (w : world) (argument : pyval)
  (c : Groq) :
  client (result (ColdEmailGenerator_init w argument)) = Some c ->
  In (api_key c) (credential_sources w argument)
  /\ truthy (api_key c) = true
  /\ api_key c <> PyNone
  /\ api_key c <> PyStr "".
Proof.
  rewrite init_client. unfold resolve_credential.
  destruct (find truthy (credential_sources w argument)) as [v|] eqn:Hfind;
    [|discriminate].
  intro Hc. injection Hc as <-. apply find_some in Hfind.
  destruct Hfind as [Hin Hv]. cbn [api_key].
  split; [exact Hin|]. split; [exact Hv|].
  split; intros ->; discriminate Hv.
Qed.

Lemma init_client_key_nonempty_witness :
  In (PyObj true "123") (credential_sources world_integer_secret (PyStr ""))
  /\ truthy (PyObj true "123") = true
  /\ PyObj true "123" <> PyNone
  /\ PyObj true "123" <> PyStr "".
Proof.
  apply (init_client_key_nonempty world_integer_secret (PyStr "")
           (mkGroq (PyObj true "123"))).
  reflexivity.
Defined.

(** X4.  The constructor leaves the client at None exactly when its log is
    the warning, the prompt and the final error, in this order: a missing
    client is always reported, and only after the user was asked. *)
Theorem init_absence_is_reported (w : world) (api_key : pyval) :
  client (result (ColdEmailGenerator_init w api_key)) = None
  <-> log (ColdEmailGenerator_init w api_key)
      = [ EvWarning "Groq API Key not found. Please enter your API key.";
          EvTextInput "Enter your Groq API Key";
          EvError "No API key provided. Cannot initialize Groq client." ].
Proof.
  split_sources w api_key; cbn; split; intro H;
    solve [reflexivity | discriminate H].
Qed.

(** ** Further properties of the generator *)

(** X5.  When the endpoint answers with no choice at all, the indexing of
    line 86 raises inside the try block: [generate_cold_email] returns
    None after the one request and shows the IndexError's text. *)
Theorem generate_without_choices (w : world) (self : ColdEmailGenerator)
  (c : Groq) (job_description resume_text : pyval) :
  client self = Some c ->
  completions_create w c (completion_request job_description resume_text)
  = inr (ChatCompletion []) ->
  generate_cold_email w self job_description resume_text
  = (PyNone,
     [ EvCreate c (completion_request job_description resume_text);
       EvError "Error generating email: list index out of range" ]).
Proof.
  intros Hc Hanswer. rewrite (generate_with_client w self c _ _ Hc).
  now rewrite Hanswer.
Qed.

Lemma generate_without_choices_witness :
  generate_cold_email world_env_Y
    (mkColdEmailGenerator (Some (mkGroq (PyStr "X"))))
    (PyStr "job") (PyStr "cv")
  = (PyNone,
     [ EvCreate (mkGroq (PyStr "X"))
         (completion_request (PyStr "job") (PyStr "cv"));
       EvError "Error generating email: list index out of range" ]).
Proof.
  apply (generate_without_choices world_env_Y
           (mkColdEmailGenerator (Some (mkGroq (PyStr "X"))))
           (mkGroq (PyStr "X")) (PyStr "job") (PyStr "cv"));
    reflexivity.
Defined.

(** X6.  Whenever [generate_cold_email] returns something other than None,
    there is a client, the log is the one request and nothing else (no
    error message), and the value is the content of the first choice of
    the endpoint's answer to that request. *)
Theorem generate_value_comes_from_endpoint (w : world)
  (self : ColdEmailGenerator) (job_description resume_text : pyval) :
  result (generate_cold_email w self job_description resume_text)
  <> PyNone ->
  exists c : Groq,
    client self = Some c
    /\ log (generate_cold_email w self job_description resume_text)
       = [ EvCreate c (completion_request job_description resume_text) ]
    /\ first_choice_content
         (completions_create w c
            (completion_request job_description resume_text))
       = inr (result
                (generate_cold_email w self job_description resume_text)).
Proof.
  destruct (client self) as [c|] eqn:Hc.
  - rewrite (generate_with_client w self c _ _ Hc).
    destruct (first_choice_content _) as [e|v] eqn:Hanswer; cbn.
    + intro H. now elim H.
    + intros _. exists c. split; [reflexivity|].
      split; [reflexivity|exact Hanswer].
  - rewrite (generate_without_client w self _ _ Hc). cbn.
    intro H. now elim H.
Qed.

Lemma generate_value_comes_from_endpoint_witness :
  exists c : Groq,
    client (mkColdEmailGenerator (Some (mkGroq (PyStr "gsk")))) = Some c
    /\ log (generate_cold_email world_ready
              (mkColdEmailGenerator (Some (mkGroq (PyStr "gsk"))))
              (PyStr "job") (PyStr "cv"))
       = [ EvCreate c (completion_request (PyStr "job") (PyStr "cv")) ]
    /\ first_choice_content
         (completions_create world_ready c
            (completion_request (PyStr "job") (PyStr "cv")))
       = inr (result
                (generate_cold_email world_ready
                   (mkColdEmailGenerator (Some (mkGroq (PyStr "gsk"))))
                   (PyStr "job") (PyStr "cv"))).
Proof.
  apply (generate_value_comes_from_endpoint world_ready
           (mkColdEmailGenerator (Some (mkGroq (PyStr "gsk"))))
           (PyStr "job") (PyStr "cv")).
  vm_compute. discriminate.
Defined.

(** ** Further properties of main *)

Lemma extract_no_display (self : ColdEmailGenerator) (pdf : pdf_file) :
  emails_displayed (log (extract_text_from_pdf self pdf)) = [].
Proof.
  destruct pdf as [[e|pages]]; cbn; [reflexivity|].
  destruct (extract_pages pages ""); reflexivity.
Qed.

(** The body of [main]'s [if] once the inputs passed its checks and there
    is a client: the request, then what the answer calls for. *)
Lemma main_generate_with_client (w : world) (self : ColdEmailGenerator)
  (pdf : pdf_file) (job_description text : string) (c : Groq) :
  job_description <> "" ->
  result (extract_text_from_pdf self pdf) = PyStr text ->
  text <> "" ->
  client self = Some c ->
  let req := completion_request (PyStr job_description) (PyStr text) in
  log (main_generate w self (Some pdf) job_description)
  = EvCreate c req :: after_request (completions_create w c req).
Proof.
  intros Hjd Htext Hnonempty Hc req.
  rewrite main_generate_truthy_text;
    [|exact Hjd|rewrite Htext; now apply truthy_PyStr].
  rewrite (extract_silent_on_success self pdf text Htext), Htext.
  rewrite (generate_with_client w self c _ _ Hc). fold req.
  unfold after_request.
  destruct (first_choice_content (completions_create w c req)) as [e|v];
    cbn [result log fst snd app]; [reflexivity|].
  destruct (truthy v); reflexivity.
Qed.

Lemma main_generate_without_client (w : world)
  (self : ColdEmailGenerator) (pdf : pdf_file)
  (job_description text : string) :
  job_description <> "" ->
  result (extract_text_from_pdf self pdf) = PyStr text ->
  text <> "" ->
  client self = None ->
  log (main_generate w self (Some pdf) job_description)
  = [ EvError "Groq client not initialized. Cannot generate email." ].
Proof.
  intros Hjd Htext Hnonempty Hc.
  rewrite main_generate_truthy_text;
    [|exact Hjd|rewrite Htext; now apply truthy_PyStr].
  rewrite (extract_silent_on_success self pdf text Htext), Htext.
  now rewrite (generate_without_client w self _ _ Hc).
Qed.

Lemma extract_truthy_text (self : ColdEmailGenerator) (pdf : pdf_file) :
  truthy (result (extract_text_from_pdf self pdf)) = true ->
  exists text,
    result (extract_text_from_pdf self pdf) = PyStr text /\ text <> "".
Proof.
  destruct pdf as [[e|pages]]; cbn; [discriminate|].
  destruct (extract_pages pages "") as [e|text]; cbn; [discriminate|].
  intro H. exists text. split; [reflexivity|now apply truthy_PyStr].
Qed.

(** X7.  End to end, on the success path: with the button clicked, a résumé
    whose extracted text is not empty, a job description, a client, and an
    answer whose first choice has non-empty content, a run of [main] sends
    one request built from the text area and the extracted text under that
    client, then shows the header, that content unchanged and the copy
    button, and nothing else. *)
Theorem main_displays_first_choice (w : world) (pdf : pdf_file)
  (text : string) (c : Groq) (first : pyval) (others : list pyval) :
  let self :=
    result (ColdEmailGenerator_init w (PyStr (sidebar_api_key w))) in
  let req :=
    completion_request (PyStr (text_area_value w)) (PyStr text) in
  generate_clicked w = true ->
  file_uploader_value w = Some pdf ->
  text_area_value w <> "" ->
  result (extract_text_from_pdf self pdf) = PyStr text ->
  text <> "" ->
  client self = Some c ->
  completions_create w c req = inr (ChatCompletion (first :: others)) ->
  truthy first = true ->
  log (main w)
  = log (main_form w)
    ++ [ EvButton "Generate Cold Email";
         EvCreate c req;
         EvHeader "Generated Cold Email";
         EvWrite first;
         EvButton "Copy to Clipboard" ].
Proof.
  intros self req Hclick Hup Hjd Htext Hnonempty Hc Hanswer Hfirst.
  rewrite main_log, Hclick, Hup. fold self.
  rewrite (main_generate_with_client w self pdf _ text c Hjd Htext
             Hnonempty Hc).
  fold req. unfold after_request. rewrite Hanswer.
  cbn [first_choice_content and_then getitem_0 choices].
  now rewrite Hfirst.
Qed.

Lemma main_displays_first_choice_witness :
  log (main world_ready)
  = log (main_form world_ready)
    ++ [ EvButton "Generate Cold Email";
         EvCreate (mkGroq (PyStr "gsk"))
           (completion_request (PyStr "Proof engineer")
              (PyStr "Jane Doe. Rocq, OCaml."));
         EvHeader "Generated Cold Email";
         EvWrite (PyStr " Dear team, ");
         EvButton "Copy to Clipboard" ].
Proof.
  apply (main_displays_first_choice world_ready three_page_resume
           "Jane Doe. Rocq, OCaml." (mkGroq (PyStr "gsk"))
           (PyStr " Dear team, ") [ PyStr "Hi" ]);
    solve [reflexivity | discriminate].
Defined.

(** X8.  End to end, on the failure path: with the same inputs, when the
    completion call raises, a run of [main] shows after the one request the
    generator's error message with the exception's text and stops: no
    header, no email, no copy button. *)
Theorem main_reports_remote_failure (w : world) (pdf : pdf_file)
  (text : string) (c : Groq) (e : exn) :
  let self :=
    result (ColdEmailGenerator_init w (PyStr (sidebar_api_key w))) in
  let req :=
    completion_request (PyStr (text_area_value w)) (PyStr text) in
  generate_clicked w = true ->
  file_uploader_value w = Some pdf ->
  text_area_value w <> "" ->
  result (extract_text_from_pdf self pdf) = PyStr text ->
  text <> "" ->
  client self = Some c ->
  completions_create w c req = inl e ->
  log (main w)
  = log (main_form w)
    ++ [ EvButton "Generate Cold Email";
         EvCreate c req;
         EvError ("Error generating email: " ++ exn_message e) ].
Proof.
  intros self req Hclick Hup Hjd Htext Hnonempty Hc Hraise.
  rewrite main_log, Hclick, Hup. fold self.
  rewrite (main_generate_with_client w self pdf _ text c Hjd Htext
             Hnonempty Hc).
  fold req. unfold after_request. now rewrite Hraise.
Qed.

Lemma main_reports_remote_failure_witness :
  log (main world_refused)
  = log (main_form world_refused)
    ++ [ EvButton "Generate Cold Email";
         EvCreate (mkGroq (PyStr "gsk"))
           (completion_request (PyStr "Proof engineer")
              (PyStr "Jane Doe. Rocq, OCaml."));
         EvError "Error generating email: Invalid API Key" ].
Proof.
  apply (main_reports_remote_failure world_refused three_page_resume
           "Jane Doe. Rocq, OCaml." (mkGroq (PyStr "gsk"))
           (Exception "AuthenticationError" "Invalid API Key"));
    solve [reflexivity | discriminate].
Defined.

Lemma after_request_no_network (answer : exn + chat_completion) :
  network_calls (after_request answer) = 0.
Proof.
  unfold after_request. destruct (first_choice_content answer) as [e|v];
    [reflexivity|]. destruct (truthy v); reflexivity.
Qed.

(** X9.  A run of [main] issues exactly one completion request when the
    button was clicked, the uploaded résumé gave non-empty text, the job
    description is not empty and there is a client, and none in every
    other case, whatever the endpoint answers: never two. *)
Theorem main_request_count (w : world) :
  network_calls (log (main w)) = if reaches_endpoint w then 1 else 0.
Proof.
  rewrite main_log, network_calls_app, main_form_no_network.
  cbn [network_calls Nat.add]. unfold reaches_endpoint.
  set (self := result (ColdEmailGenerator_init w
                         (PyStr (sidebar_api_key w)))).
  destruct (generate_clicked w); [|reflexivity]. cbn [andb].
  destruct (file_uploader_value w) as [pdf|]; [|reflexivity].
  destruct (text_area_value w) as [|a jd] eqn:Harea.
  { rewrite main_generate_no_description. now rewrite andb_false_r. }
  assert (Hjd : String a jd <> "") by discriminate.
  destruct (truthy (result (extract_text_from_pdf self pdf))) eqn:Htext.
  - destruct (extract_truthy_text self pdf Htext) as (text & Hresult & Hne).
    cbn [andb truthy].
    destruct (client self) as [c|] eqn:Hc.
    + rewrite (main_generate_with_client w self pdf _ text c Hjd Hresult
                 Hne Hc).
      cbn [network_calls]. now rewrite after_request_no_network.
    + now rewrite (main_generate_without_client w self pdf _ text Hjd
                     Hresult Hne Hc).
  - rewrite (main_generate_falsy_text w self pdf _ Hjd Htext).
    cbn [log snd andb]. apply extract_no_network.
Qed.

(** X10.  A run of [main] displays at most one email, and what it displays
    is never of its own making: a displayed value is the non-empty content
    of the first choice the endpoint returned for the request built from
    the text area and the extracted text. *)
Theorem main_displays_only_generated (w : world) (v : pyval) :
  let self :=
    result (ColdEmailGenerator_init w (PyStr (sidebar_api_key w))) in
  In v (emails_displayed (log (main w))) ->
  emails_displayed (log (main w)) = [ v ]
  /\ truthy v = true
  /\ exists (c : Groq) (pdf : pdf_file) (text : string),
       client self = Some c
       /\ file_uploader_value w = Some pdf
       /\ result (extract_text_from_pdf self pdf) = PyStr text
       /\ first_choice_content
            (completions_create w c
               (completion_request (PyStr (text_area_value w))
                  (PyStr text)))
          = inr v.
Proof.
  intro self. rewrite main_log, emails_displayed_app, main_form_no_display.
  cbn [emails_displayed app]. fold self.
  destruct (generate_clicked w); [|intros []].
  destruct (file_uploader_value w) as [pdf|]; [|intros []].
  destruct (text_area_value w) as [|a jd] eqn:Harea; [intros []|].
  assert (Hjd : String a jd <> "") by discriminate.
  destruct (truthy (result (extract_text_from_pdf self pdf))) eqn:Htext.
  - destruct (extract_truthy_text self pdf Htext) as (text & Hresult & Hne).
    destruct (client self) as [c|] eqn:Hc.
    + rewrite (main_generate_with_client w self pdf _ text c Hjd Hresult
                 Hne Hc).
      cbn [emails_displayed]. unfold after_request.
      destruct (first_choice_content _) as [e|v0] eqn:Hanswer;
        [intros []|].
      destruct (truthy v0) eqn:Hv0; [|intros []].
      cbn [emails_displayed In]. intros [<- | []].
      split; [reflexivity|]. split; [exact Hv0|].
      exists c, pdf, text. repeat split; assumption.
    + rewrite (main_generate_without_client w self pdf _ text Hjd
                 Hresult Hne Hc). intros [].
  - rewrite (main_generate_falsy_text w self pdf _ Hjd Htext).
    cbn [log snd]. rewrite extract_no_display. intros [].
Qed.

Lemma main_displays_only_generated_witness :
  emails_displayed (log (main world_ready)) = [ PyStr " Dear team, " ]
  /\ truthy (PyStr " Dear team, ") = true.
Proof.
  destruct (main_displays_only_generated world_ready (PyStr " Dear team, "))
    as (Hone & Htruthy & _).
  - vm_compute. left. reflexivity.
  - split; assumption.
Defined.

(** X11.  The answer of the "Copy to Clipboard" button changes nothing: a
    run of [main] has the same log whether or not that button is reported
    as clicked.  The program holds no clipboard action. *)
Theorem main_copy_button_inert (w : world) (b : bool) :
  main (with_copy_clicked b w) = main w.
Proof.
  destruct w as [env secret entered sidebar upload area clicked copy remote].
  reflexivity.
Qed.


(** X12.  [main] checks its inputs before it does any work, the résumé
    first.  Without a click nothing follows the button.  With a click and
    no upload the only thing that follows is the résumé warning, whatever
    the job description.  With a click, an upload and an empty job
    description the only thing that follows is the job description
    warning: the file is not read, so even a file the library cannot open
    gives no error. *)
Theorem main_validates_before_reading (w : world) :
  (generate_clicked w = false ->
   log (main w) = log (main_form w) ++ [ EvButton "Generate Cold Email" ])
  /\ (generate_clicked w = true ->
      file_uploader_value w = None ->
      log (main w)
      = log (main_form w)
        ++ [ EvButton "Generate Cold Email";
             EvWarning "Please upload your resume" ])
  /\ (forall pdf : pdf_file,
        generate_clicked w = true ->
        file_uploader_value w = Some pdf ->
        text_area_value w = "" ->
        log (main w)
        = log (main_form w)
          ++ [ EvButton "Generate Cold Email";
               EvWarning "Please paste the job description" ]).
Proof.
  rewrite main_log. split; [|split].
  - now intros ->.
  - now intros -> ->.
  - now intros pdf -> -> ->.
Qed.

Lemma main_validates_before_reading_witness :
  log (main world_corrupt_no_description)
  = log (main_form world_corrupt_no_description)
    ++ [ EvButton "Generate Cold Email";
         EvWarning "Please paste the job description" ].
Proof.
  apply (proj2 (proj2 (main_validates_before_reading
                         world_corrupt_no_description))
           (UploadedFile
              (inl (Exception "PdfReadError" "EOF marker not found"))));
    reflexivity.
Defined.




Lemma create_in_log_counts (t : trace) (c : Groq) (req : request) :
  In (EvCreate c req) t -> network_calls t <> 0.
Proof.
  induction t as [|e t IH]; [intros []|].
  intros [-> | Hin]; [discriminate|].
  destruct e; cbn [network_calls]; auto.
Qed.

(** X14.  Every completion request a run of [main] sends is made under the
    credential the resolver selects with the sidebar entry as explicit
    argument (sidebar entry, then environment variable, then platform
    secret, then the prompted entry), and carries the request built from
    the text area's content and the text extracted from the upload. *)
Theorem main_request_uses_resolved_key (w : world) (c : Groq)
  (req : request) :
  let self :=
    result (ColdEmailGenerator_init w (PyStr (sidebar_api_key w))) in
  In (EvCreate c req) (log (main w)) ->
  resolve_credential (credential_sources w (PyStr (sidebar_api_key w)))
  = Some (api_key c)
  /\ exists (pdf : pdf_file) (text : string),
       file_uploader_value w = Some pdf
       /\ result (extract_text_from_pdf self pdf) = PyStr text
       /\ req
          = completion_request (PyStr (text_area_value w)) (PyStr text).
Proof.
  intros self Hin. rewrite main_log in Hin.
  apply in_app_or in Hin. destruct Hin as [Hform | [Hbutton | Hin]].
  { apply create_in_log_counts in Hform.
    now rewrite main_form_no_network in Hform. }
  { discriminate Hbutton. }
  fold self in Hin.
  destruct (generate_clicked w); [|destruct Hin].
  destruct (file_uploader_value w) as [pdf|];
    [|destruct Hin as [Hw | []]; discriminate Hw].
  destruct (text_area_value w) as [|a jd] eqn:Harea;
    [destruct Hin as [Hw | []]; discriminate Hw|].
  assert (Hjd : String a jd <> "") by discriminate.
  destruct (truthy (result (extract_text_from_pdf self pdf))) eqn:Htext.
  - destruct (extract_truthy_text self pdf Htext) as (text & Hresult & Hne).
    destruct (client self) as [c0|] eqn:Hc.
    + rewrite (main_generate_with_client w self pdf _ text c0 Hjd Hresult
                 Hne Hc) in Hin.
      destruct Hin as [Hhead | Hafter].
      * injection Hhead as <- <-. split.
        -- unfold self in Hc. rewrite init_client in Hc.
           destruct (resolve_credential _) as [key|]; [|discriminate Hc].
           cbn in Hc. injection Hc as <-. reflexivity.
        -- exists pdf, text. repeat split. exact Hresult.
      * apply create_in_log_counts in Hafter.
        now rewrite after_request_no_network in Hafter.
    + rewrite (main_generate_without_client w self pdf _ text Hjd Hresult
                 Hne Hc) in Hin.
      destruct Hin as [Hw | []]; discriminate Hw.
  - rewrite (main_generate_falsy_text w self pdf _ Hjd Htext) in Hin.
    cbn [log snd] in Hin. apply create_in_log_counts in Hin.
    now rewrite extract_no_network in Hin.
Qed.

Lemma main_request_uses_resolved_key_witness :
  resolve_credential
    (credential_sources world_ready (PyStr (sidebar_api_key world_ready)))
  = Some (PyStr "gsk").
Proof.
  apply (proj1 (main_request_uses_resolved_key world_ready
                  (mkGroq (PyStr "gsk"))
                  (completion_request (PyStr "Proof engineer")
                     (PyStr "Jane Doe. Rocq, OCaml."))
                  ltac:(vm_compute; do 10 right; left; reflexivity))).
Defined.
